(** * telegram-gpt-bot: the webhook relay of [main.py]

    A shallow embedding of [main.py]: the values the handler receives
    (parsed JSON), the Python operations it applies to them, the two
    outbound calls ([openai.ChatCompletion.create] and
    [httpx.AsyncClient.post]) as events of a trace answered by an
    environment, and the handlers themselves in a state-and-exception
    monad.

    Modelling conventions.
    - A Python [str] is represented by its UTF-8 encoding (a [string] of
      bytes); equality, emptiness and concatenation are the same on both.
    - [exn] stands for instances of [Exception], the class both [except]
      clauses of the source catch.
    - [print] and the construction of a [JSONResponse] do not raise. *)

From Stdlib Require Import ZArith String Ascii List Floats.SpecFloat.
From stdpp Require Import base gmap strings list pretty.

Set Warnings "-register-all".
Open Scope Z_scope.
Open Scope string_scope.
Open Scope list_scope.

(** ** Python values, as [json] decoding produces them *)

Inductive pyval : Type :=
| PyNone
| PyBool (b : bool)
| PyInt (n : Z)
| PyFloat (f : spec_float)
| PyStr (s : string)
| PyList (l : list pyval)
| PyDict (d : gmap string pyval).

(** [type(v).__name__] *)
Definition py_type_name (v : pyval) : string :=
  match v with
  | PyNone => "NoneType"
  | PyBool _ => "bool"
  | PyInt _ => "int"
  | PyFloat _ => "float"
  | PyStr _ => "str"
  | PyList _ => "list"
  | PyDict _ => "dict"
  end.

(** A subscript: the source subscripts with string literals and with [0]. *)
Inductive key : Type :=
| KStr (s : string)
| KInt (n : Z).

(** [repr(k)] of a subscript; the string keys of the source ("message",
    "chat", "id") contain no quote and nothing to escape. *)
Definition key_repr (k : key) : string :=
  match k with
  | KStr s => "'" +:+ s +:+ "'"
  | KInt n => pretty n
  end.

(** ** Exceptions and [str(e)] *)

Inductive exn : Type :=
| KeyError (k : key)
| TypeError (msg : string)
| AttributeError (msg : string)
| IndexError (msg : string)
| HTTPException (status_code : Z) (detail : string)
| LibraryError (msg : string).
(* [LibraryError]: an exception raised inside [httpx], [openai] or the
   request's JSON decoder; only its message is observed. *)

Definition exn_str (e : exn) : string :=
  match e with
  | KeyError k => key_repr k
  | TypeError msg => msg
  | AttributeError msg => msg
  | IndexError msg => msg
  | HTTPException code detail => pretty code +:+ ": " +:+ detail
  | LibraryError msg => msg
  end.

Inductive result (A : Type) : Type :=
| Ok (a : A)
| Raise (e : exn).
Arguments Ok {A} a.
Arguments Raise {A} e.

#[export] Instance result_ret : MRet result := @Ok.
#[export] Instance result_bind : MBind result := fun A B k r =>
  match r with
  | Ok a => k a
  | Raise e => Raise e
  end.

(** ** Python operations on values *)

(** [bool(v)], the test behind [not text] *)
Definition py_truthy (v : pyval) : bool :=
  match v with
  | PyNone => false
  | PyBool b => b
  | PyInt n => negb (n =? 0)%Z
  | PyFloat f => match f with S754_zero _ => false | _ => true end
  | PyStr s => negb (String.eqb s EmptyString)
  | PyList l => match l with [] => false | _ => true end
  | PyDict d => negb (bool_decide (d = ∅))
  end.

(** [v == s] for a string literal [s] *)
Definition py_eq_str (v : pyval) (s : string) : bool :=
  match v with
  | PyStr s' => String.eqb s' s
  | _ => false
  end.

(** [needle in hay] on strings: substring test *)
Fixpoint str_contains (needle hay : string) : bool :=
  String.prefix needle hay ||
  match hay with
  | EmptyString => false
  | String _ hay' => str_contains needle hay'
  end.

(** [s in container] for a string literal [s] *)
Definition py_contains_str (s : string) (container : pyval) : result bool :=
  match container with
  | PyDict d => Ok (bool_decide (is_Some (d !! s)))
  | PyList l => Ok (existsb (fun x => py_eq_str x s) l)
  | PyStr hay => Ok (str_contains s hay)
  | _ => Raise (TypeError ("argument of type '" +:+ py_type_name container
                           +:+ "' is not iterable"))
  end.

(** [l[n]] on a sequence of length [length l]: negative indices count
    from the end *)
Definition seq_index {A : Type} (l : list A) (n : Z) : option A :=
  let len := Z.of_nat (length l) in
  if ((0 <=? n) && (n <? len))%Z then l !! Z.to_nat n
  else if ((- len <=? n) && (n <? 0))%Z then l !! Z.to_nat (len + n)
  else None.

(** [container[k]] *)
Definition py_getitem (container : pyval) (k : key) : result pyval :=
  match container, k with
  | PyDict d, KStr s =>
      match d !! s with
      | Some v => Ok v
      | None => Raise (KeyError k)
      end
  | PyDict _, KInt _ => Raise (KeyError k)
  | PyList l, KInt n =>
      match seq_index l n with
      | Some v => Ok v
      | None => Raise (IndexError "list index out of range")
      end
  | PyList _, KStr _ =>
      Raise (TypeError "list indices must be integers or slices, not str")
  | PyStr s, KInt n =>
      (* a string of length one; by bytes here, by code points in Python *)
      match seq_index (list_ascii_of_string s) n with
      | Some c => Ok (PyStr (String c EmptyString))
      | None => Raise (IndexError "string index out of range")
      end
  | PyStr _, KStr _ =>
      Raise (TypeError "string indices must be integers, not 'str'")
  | _, _ => Raise (TypeError ("'" +:+ py_type_name container
                              +:+ "' object is not subscriptable"))
  end.

(** [container.get(k, default)] *)
Definition py_get (container : pyval) (k : string) (default : pyval)
  : result pyval :=
  match container with
  | PyDict d => Ok (match d !! k with Some v => v | None => default end)
  | _ => Raise (AttributeError ("'" +:+ py_type_name container
                                +:+ "' object has no attribute 'get'"))
  end.

(** [obj.name] on a decoded API object: the objects of the [openai]
    client are dicts whose attribute access is key access. *)
Definition py_getattr (obj : pyval) (name : string) : result pyval :=
  match obj with
  | PyDict d =>
      match d !! name with
      | Some v => Ok v
      | None => Raise (AttributeError name)
      end
  | _ => Raise (AttributeError ("'" +:+ py_type_name obj
                                +:+ "' object has no attribute '"
                                +:+ name +:+ "'"))
  end.

(** *** [str.strip()]

    Python strips the code points for which [str.isspace] holds:
    U+0009..U+000D, U+001C..U+0020, U+0085, U+00A0, U+1680,
    U+2000..U+200A, U+2028, U+2029, U+202F, U+205F, U+3000; below, their
    UTF-8 encodings in one, two and three bytes. *)

Definition is_space1 (a : ascii) : bool :=
  let n := N_of_ascii a in
  ((9 <=? n) && (n <=? 13) || (28 <=? n) && (n <=? 32))%N.

Definition is_space2 (a b : ascii) : bool :=
  let x := N_of_ascii a in
  let y := N_of_ascii b in
  ((x =? 194) && ((y =? 133) || (y =? 160)))%N.

Definition is_space3 (a b c : ascii) : bool :=
  let x := N_of_ascii a in
  let y := N_of_ascii b in
  let z := N_of_ascii c in
  ((x =? 225) && (y =? 154) && (z =? 128)
   || (x =? 226) && (y =? 128)
      && ((128 <=? z) && (z <=? 138) || (z =? 168) || (z =? 169) || (z =? 175))
   || (x =? 226) && (y =? 129) && (z =? 159)
   || (x =? 227) && (y =? 128) && (z =? 128))%N.

(** Drops the leading whitespace; with [backwards] the bytes of [s] are
    those of a reversed string, read last byte first. *)
Fixpoint strip_leading (backwards : bool) (s : string) : string :=
  match s with
  | EmptyString => s
  | String a s1 =>
      if is_space1 a then strip_leading backwards s1
      else
        match s1 with
        | EmptyString => s
        | String b s2 =>
            if (if backwards then is_space2 b a else is_space2 a b)
            then strip_leading backwards s2
            else
              match s2 with
              | EmptyString => s
              | String c s3 =>
                  if (if backwards then is_space3 c b a else is_space3 a b c)
                  then strip_leading backwards s3
                  else s
              end
        end
  end.

Definition str_strip (s : string) : string :=
  String.rev (strip_leading true (String.rev (strip_leading false s))).

(** [type(v).__name__] of a value inside an API answer: there the
    objects are of the client's class [OpenAIObject], a [dict]. *)
Definition api_type_name (v : pyval) : string :=
  match v with
  | PyDict _ => "OpenAIObject"
  | _ => py_type_name v
  end.

(** [obj.strip()], on a value inside an API answer *)
Definition py_strip (obj : pyval) : result pyval :=
  match obj with
  | PyStr s => Ok (PyStr (str_strip s))
  | PyDict d =>
      match d !! "strip" with
      | Some v => Raise (TypeError ("'" +:+ api_type_name v
                                    +:+ "' object is not callable"))
      | None => Raise (AttributeError "strip")
      end
  | _ => Raise (AttributeError ("'" +:+ py_type_name obj
                                +:+ "' object has no attribute 'strip'"))
  end.

(** [f"{v}"] of an environment variable: [os.getenv] gives a string or
    [None]. *)
Definition format_getenv (v : option string) : string :=
  match v with
  | Some s => s
  | None => "None"
  end.

(** ** Outbound calls, the trace and the environment *)

(** The keyword arguments of [openai.ChatCompletion.create], with the key
    the module was configured with ([openai.api_key = OPENAI_API_KEY]). *)
Record ChatCompletionRequest : Type := {
  api_key : option string;
  model : string;
  messages : list pyval;
  max_tokens : Z;
  temperature : spec_float
}.

Inductive event : Type :=
| EvChatCompletion (req : ChatCompletionRequest)
| EvPost (url : string) (payload : pyval)
| EvGet (url : string)
| EvPrint (line : string).

Definition trace : Type := list event.

(** An [httpx.Response], as far as the source looks at it: what
    [raise_for_status()] and [json()] do. *)
Record Response : Type := {
  raise_for_status : option exn;
  json : result pyval
}.

(** The outside world: how the completion API and the messaging platform
    answer a call, given everything that happened before it. *)
Record Env : Type := {
  ChatCompletion_create : trace -> ChatCompletionRequest -> result pyval;
  AsyncClient_post : trace -> string -> pyval -> result Response;
  AsyncClient_get : trace -> string -> result Response
}.

(** The process environment, read once at import. *)
Record Config : Type := {
  TELEGRAM_BOT_TOKEN : option string;
  OPENAI_API_KEY : option string
}.

(** ** The monad: a trace threaded through, and exceptions *)

Definition M (A : Type) : Type := trace -> result A * trace.

Definition ret {A : Type} (a : A) : M A := fun tr => (Ok a, tr).

Definition raise {A : Type} (e : exn) : M A := fun tr => (Raise e, tr).

Definition bind {A B : Type} (m : M A) (k : A -> M B) : M B :=
  fun tr =>
    match m tr with
    | (Ok a, tr') => k a tr'
    | (Raise e, tr') => (Raise e, tr')
    end.

Definition lift {A : Type} (r : result A) : M A := fun tr => (r, tr).

(** [try: m  except Exception as e: handler e] *)
Definition try_except {A : Type} (m : M A) (handler : exn -> M A) : M A :=
  fun tr =>
    match m tr with
    | (Ok a, tr') => (Ok a, tr')
    | (Raise e, tr') => handler e tr'
    end.

#[export] Instance M_ret : MRet M := @ret.
#[export] Instance M_bind : MBind M := fun A B k m => bind m k.

(** The response of an endpoint *)
Record JSONResponse : Type := {
  content : pyval;
  status_code : Z
}.

Record Request : Type := {
  request_json : result pyval
}.

(** 0.7 as the double Python reads: 6305039478318694 * 2^-53 *)
Definition temperature_0_7 : spec_float :=
  S754_finite false 6305039478318694 (-53).

Section Handlers.

Variable cfg : Config.
Variable env : Env.

Definition TELEGRAM_API_URL : string :=
  "https://api.telegram.org/bot" +:+ format_getenv (TELEGRAM_BOT_TOKEN cfg).

(** *** Primitive effects *)

Definition openai_ChatCompletion_create (req : ChatCompletionRequest)
  : M pyval :=
  fun tr => (ChatCompletion_create env tr req,
             tr ++ [EvChatCompletion req]).

Definition client_post (url : string) (payload : pyval) : M Response :=
  fun tr => (AsyncClient_post env tr url payload,
             tr ++ [EvPost url payload]).

Definition client_get (url : string) : M Response :=
  fun tr => (AsyncClient_get env tr url, tr ++ [EvGet url]).

Definition print (line : string) : M unit :=
  fun tr => (Ok tt, tr ++ [EvPrint line]).

Definition response_raise_for_status (response : Response) : M unit :=
  match raise_for_status response with
  | Some e => raise e
  | None => ret tt
  end.

(** *** [send_telegram_message] *)

Definition sendMessage_url : string := TELEGRAM_API_URL +:+ "/sendMessage".

Definition sendMessage_payload (chat_id text : pyval) : pyval :=
  PyDict {[ "chat_id" := chat_id; "text" := text ]}.

Definition send_telegram_message (chat_id : pyval) (text : pyval) : M pyval :=
  let url := sendMessage_url in
  let payload := sendMessage_payload chat_id text in
  response ← client_post url payload;
  response_raise_for_status response;;
  lift (json response).

(** *** [get_openai_response] *)

Definition completion_request (text : pyval) : ChatCompletionRequest :=
  {| api_key := OPENAI_API_KEY cfg;
     model := "gpt-3.5-turbo";
     messages :=
       [ PyDict {[ "role" := PyStr "system";
                   "content" := PyStr "You are a helpful assistant." ]};
         PyDict {[ "role" := PyStr "user"; "content" := text ]} ];
     max_tokens := 500;
     temperature := temperature_0_7 |}.

Definition openai_error_prefix : string := "Ошибка при обращении к OpenAI: ".

(** [response.choices[0].message.content] *)
Definition response_content (response : pyval) : result pyval :=
  choices ← py_getattr response "choices";
  choice ← py_getitem choices (KInt 0);
  message ← py_getattr choice "message";
  py_getattr message "content".

Definition get_openai_response (text : pyval) : M pyval :=
  try_except
    (response ← openai_ChatCompletion_create (completion_request text);
     content ← lift (response_content response);
     lift (py_strip content))
    (fun e => ret (PyStr (openai_error_prefix +:+ exn_str e))).

(** *** [webhook] *)

Definition welcome_message : string :=
  "Привет! Я бот, работающий с ChatGPT.
Отправь мне любое сообщение, и я отвечу с помощью OpenAI.".

Definition text_prompt : string :=
  "Пожалуйста, отправьте текстовое сообщение.".

Definition ok_true : JSONResponse :=
  {| content := PyDict {[ "ok" := PyBool true ]}; status_code := 200 |}.

Definition ok_false (e : exn) : JSONResponse :=
  {| content := PyDict {[ "ok" := PyBool false;
                          "error" := PyStr (exn_str e) ]};
     status_code := 500 |}.

(** The body of the [try] block. *)
Definition webhook_try (request : Request) : M JSONResponse :=
  data ← lift (request_json request);
  has_message ← lift (py_contains_str "message" data);
  if negb has_message then ret ok_true
  else
    message ← lift (py_getitem data (KStr "message"));
    chat ← lift (py_getitem message (KStr "chat"));
    chat_id ← lift (py_getitem chat (KStr "id"));
    text ← lift (py_get message "text" (PyStr EmptyString));
    if py_eq_str text "/start" then
      send_telegram_message chat_id (PyStr welcome_message);;
      ret ok_true
    else if negb (py_truthy text) then
      send_telegram_message chat_id (PyStr text_prompt);;
      ret ok_true
    else
      ai_response ← get_openai_response text;
      send_telegram_message chat_id ai_response;;
      ret ok_true.

Definition webhook_log_prefix : string := "Ошибка при обработке webhook: ".

Definition webhook (request : Request) : M JSONResponse :=
  try_except (webhook_try request)
    (fun e =>
       print (webhook_log_prefix +:+ exn_str e);;
       ret (ok_false e)).

(** *** The admin endpoints *)

Definition token_missing : bool :=
  match TELEGRAM_BOT_TOKEN cfg with
  | None => true
  | Some s => String.eqb s EmptyString
  end.

Definition token_missing_detail : string := "TELEGRAM_BOT_TOKEN не установлен".

Definition set_webhook (webhook_url : string) : M pyval :=
  if token_missing then raise (HTTPException 500 token_missing_detail)
  else
    let url := TELEGRAM_API_URL +:+ "/setWebhook" in
    let payload := PyDict {[ "url" := PyStr webhook_url ]} in
    response ← client_post url payload;
    response_raise_for_status response;;
    lift (json response).

Definition get_webhook_info : M pyval :=
  if token_missing then raise (HTTPException 500 token_missing_detail)
  else
    let url := TELEGRAM_API_URL +:+ "/getWebhookInfo" in
    response ← client_get url;
    response_raise_for_status response;;
    lift (json response).

End Handlers.

(** * Vocabulary of the statements *)

(** What a send returns or raises, from the platform's answer to the POST. *)
Definition post_outcome (answer : result Response) : result pyval :=
  match answer with
  | Raise e => Raise e
  | Ok response =>
      match raise_for_status response with
      | Some e => Raise e
      | None => json response
      end
  end.

(** The answer of the platform to the send of [text] to [chat_id] after
    the history [tr]. *)
Definition send_outcome (cfg : Config) (env : Env) (tr : trace)
    (chat_id text : pyval) : result pyval :=
  post_outcome (AsyncClient_post env tr (sendMessage_url cfg)
                  (sendMessage_payload chat_id text)).

Definition EvSend (cfg : Config) (chat_id text : pyval) : event :=
  EvPost (sendMessage_url cfg) (sendMessage_payload chat_id text).

Definition EvLog (e : exn) : event :=
  EvPrint (webhook_log_prefix +:+ exn_str e).

(** The request body is a JSON object whose "message" member is [message]. *)
Definition carries_message (request : Request) (message : pyval) : Prop :=
  exists d,
    request_json request = Ok (PyDict d) /\ d !! "message" = Some message.

(** [message] is an object with a "chat" object that has an "id". *)
Definition has_chat_id (message : pyval) (chat_id : pyval) : Prop :=
  exists m c, message = PyDict m /\ m !! "chat" = Some (PyDict c)
              /\ c !! "id" = Some chat_id.

(** The "text" member of a message object, if any. *)
Definition text_field (message : pyval) : option pyval :=
  match message with
  | PyDict m => m !! "text"
  | _ => None
  end.

(** The value of [message.get("text", "")] on a message object. *)
Definition message_text (message : pyval) : pyval :=
  default (PyStr EmptyString) (text_field message).

Definition is_send (ev : event) : bool :=
  match ev with
  | EvPost _ _ => true
  | _ => false
  end.

Definition is_completion (ev : event) : bool :=
  match ev with
  | EvChatCompletion _ => true
  | _ => false
  end.

Definition count_sends (tr : trace) : nat :=
  length (List.filter is_send tr).
Definition count_completions (tr : trace) : nat :=
  length (List.filter is_completion tr).

(** The string [get_openai_response] hands back, from the answer of the
    completion API. *)
Definition completion_text (answer : result pyval) : result pyval :=
  response ← answer;
  content ← response_content response;
  py_strip content.

Definition completion_reply (answer : result pyval) : pyval :=
  match completion_text answer with
  | Ok v => v
  | Raise e => PyStr (openai_error_prefix +:+ exn_str e)
  end.

(** How a handling ends once the reply is chosen: one send, then the
    response. *)
Definition deliver (cfg : Config) (env : Env) (chat_id reply : pyval)
    (tr : trace) : result JSONResponse * trace :=
  match send_outcome cfg env tr chat_id reply with
  | Ok _ => (Ok ok_true, tr ++ [EvSend cfg chat_id reply])
  | Raise e =>
      (Ok (ok_false e), tr ++ [EvSend cfg chat_id reply; EvLog e])
  end.


(** The reply the handler chooses for a text, and the trace once it is
    chosen: the welcome, the prompt, or what the completion client
    returned. *)
Definition choose_reply (cfg : Config) (env : Env) (text : pyval)
    (tr : trace) : pyval * trace :=
  if py_eq_str text "/start" then (PyStr welcome_message, tr)
  else if negb (py_truthy text) then (PyStr text_prompt, tr)
  else
    (completion_reply
       (ChatCompletion_create env tr (completion_request cfg text)),
     tr ++ [EvChatCompletion (completion_request cfg text)]).




(** * Concrete configurations, environments and updates *)

Definition cfg_set : Config :=
  {| TELEGRAM_BOT_TOKEN := Some "123456:AAF-token";
     OPENAI_API_KEY := Some "sk-test" |}.

Definition cfg_unset : Config :=
  {| TELEGRAM_BOT_TOKEN := None; OPENAI_API_KEY := Some "sk-test" |}.

(** The platform accepted the call. *)
Definition accepted : Response :=
  {| raise_for_status := None;
     json := Ok (PyDict {[ "ok" := PyBool true ]}) |}.

(** The platform answered 404: [raise_for_status()] raises. *)
Definition not_found : Response :=
  {| raise_for_status := Some (LibraryError "Client error '404 Not Found'");
     json := Ok (PyDict {[ "ok" := PyBool false ]}) |}.

(** A completion with one choice whose message has the given content. *)
Definition chat_completion (generated : string) : pyval :=
  PyDict {[ "choices" :=
    PyList [ PyDict {[ "message" :=
      PyDict {[ "role" := PyStr "assistant";
                "content" := PyStr generated ]} ]} ] ]}.

(** Both services work. *)
Definition env_up : Env :=
  {| ChatCompletion_create := fun _ _ => Ok (chat_completion "  Hello!  ");
     AsyncClient_post := fun _ _ _ => Ok accepted;
     AsyncClient_get := fun _ _ => Ok accepted |}.

(** The messaging platform cannot be reached. *)
Definition connect_error : exn :=
  LibraryError "All connection attempts failed".

Definition env_send_down : Env :=
  {| ChatCompletion_create := fun _ _ => Ok (chat_completion "  Hello!  ");
     AsyncClient_post := fun _ _ _ => Raise connect_error;
     AsyncClient_get := fun _ _ => Raise connect_error |}.

(** The completion API cannot be reached. *)
Definition env_api_down : Env :=
  {| ChatCompletion_create :=
       fun _ _ => Raise (LibraryError "Error communicating with OpenAI");
     AsyncClient_post := fun _ _ _ => Ok accepted;
     AsyncClient_get := fun _ _ => Ok accepted |}.

(** A platform that knows no bot called "None". *)
Definition env_platform : Env :=
  {| ChatCompletion_create := fun _ _ => Ok (chat_completion "  Hello!  ");
     AsyncClient_post := fun _ url _ =>
       if String.prefix "https://api.telegram.org/botNone/" url
       then Ok not_found else Ok accepted;
     AsyncClient_get := fun _ url =>
       if String.prefix "https://api.telegram.org/botNone/" url
       then Ok not_found else Ok accepted |}.

(** [{"chat": {"id": chat_id}}], with a "text" member when given. *)
Definition message_from (chat_id : Z) (text : option pyval) : pyval :=
  let chat := PyDict {[ "id" := PyInt chat_id ]} in
  match text with
  | Some v => PyDict {[ "chat" := chat; "text" := v ]}
  | None => PyDict {[ "chat" := chat ]}
  end.

(** [{"update_id": 1, "message": message}] *)
Definition update_with (message : pyval) : Request :=
  {| request_json :=
       Ok (PyDict {[ "update_id" := PyInt 1; "message" := message ]}) |}.

(** A text message from chat 42, and a message without text from chat 7. *)
Definition update_text (s : string) : Request :=
  update_with (message_from 42 (Some (PyStr s))).


(** * Vocabulary of the further properties *)



(** The completion calls the handler makes for a text: one when the text
    is truthy and not the command, none otherwise. *)
Definition completion_calls (cfg : Config) (text : pyval) : trace :=
  if py_truthy text && negb (py_eq_str text "/start")
  then [EvChatCompletion (completion_request cfg text)]
  else [].

(** The body is a JSON object whose message has a chat id. *)
Definition addressed (request : Request) : Prop :=
  exists message chat_id,
    carries_message request message /\ has_chat_id message chat_id.

(** The token is configured and not the empty string. *)
Definition token_set (cfg : Config) (token : string) : Prop :=
  TELEGRAM_BOT_TOKEN cfg = Some token /\ token <> EmptyString.

(** A completion answer whose first choice has the given content. *)
Definition completion_with (content : pyval) : pyval :=
  PyDict {[ "choices" :=
    PyList [ PyDict {[ "message" :=
      PyDict {[ "role" := PyStr "assistant"; "content" := content ]} ]} ] ]}.

(** Both services work and the completion API gives [answer]. *)
Definition env_answers (answer : result pyval) : Env :=
  {| ChatCompletion_create := fun _ _ => answer;
     AsyncClient_post := fun _ _ _ => Ok accepted;
     AsyncClient_get := fun _ _ => Ok accepted |}.



Definition cfg_empty_token : Config :=
  {| TELEGRAM_BOT_TOKEN := Some EmptyString;
     OPENAI_API_KEY := Some "sk-test" |}.

(** The update of [update_text], as the platform sends it: with the
    sender, the date and the message id. *)
Definition update_verbose (s : string) : Request :=
  {| request_json :=
       Ok (PyDict {[
         "update_id" := PyInt 870;
         "message" := PyDict {[
           "message_id" := PyInt 15;
           "from" := PyDict {[ "id" := PyInt 42; "is_bot" := PyBool false ]};
           "chat" := PyDict {[ "id" := PyInt 42; "type" := PyStr "private" ]};
           "date" := PyInt 1700000000;
           "text" := PyStr s ]} ]}) |}.

(** * The Python operations on sample values *)

Example str_strip_ascii :
  str_strip (String (ascii_of_nat 10) "  Hello, world! ") = "Hello, world!".
Proof. by vm_compute. Qed.

(** U+00A0 before and U+3000 after the text are stripped as well. *)
Example str_strip_unicode :
  str_strip (String (ascii_of_nat 194) (String (ascii_of_nat 160) "ok")
             +:+ String (ascii_of_nat 227) (String (ascii_of_nat 128)
                   (String (ascii_of_nat 128) EmptyString)))
  = "ok".
Proof. by vm_compute. Qed.

Example str_strip_inner : str_strip " a b " = "a b".
Proof. by vm_compute. Qed.

Example py_truthy_falsy_values :
  map py_truthy
    [PyNone; PyBool false; PyInt 0; PyFloat (S754_zero true);
     PyStr EmptyString; PyList []; PyDict ∅]
  = [false; false; false; false; false; false; false].
Proof. by vm_compute. Qed.

Example py_truthy_truthy_values :
  map py_truthy
    [PyBool true; PyInt (-1); PyFloat S754_nan; PyStr " "; PyList [PyNone];
     PyDict {[ "a" := PyNone ]}]
  = [true; true; true; true; true; true].
Proof. by vm_compute. Qed.

Example py_contains_str_samples :
  py_contains_str "message" (PyDict {[ "message" := PyNone ]}) = Ok true
  /\ py_contains_str "message" (PyDict {[ "edited_message" := PyNone ]})
     = Ok false
  /\ py_contains_str "message" (PyList [PyStr "message"]) = Ok true
  /\ py_contains_str "message" (PyStr "a message") = Ok true
  /\ py_contains_str "message" (PyInt 5)
     = Raise (TypeError "argument of type 'int' is not iterable").
Proof. repeat split; by vm_compute. Qed.

Example py_getitem_samples :
  py_getitem (PyList [PyInt 1; PyInt 2]) (KInt 0) = Ok (PyInt 1)
  /\ py_getitem (PyList [PyInt 1; PyInt 2]) (KInt (-1)) = Ok (PyInt 2)
  /\ py_getitem (PyList []) (KInt 0)
     = Raise (IndexError "list index out of range")
  /\ py_getitem (PyDict ∅) (KStr "chat") = Raise (KeyError (KStr "chat"))
  /\ exn_str (KeyError (KStr "chat")) = "'chat'".
Proof. repeat split; by vm_compute. Qed.

Example sendMessage_url_samples :
  sendMessage_url cfg_set
  = "https://api.telegram.org/bot123456:AAF-token/sendMessage"
  /\ sendMessage_url cfg_unset
     = "https://api.telegram.org/botNone/sendMessage".
Proof. split; by vm_compute. Qed.

(** * Run equations *)

Ltac unfold_monad :=
  unfold mbind, mret, M_bind, M_ret, result_bind, result_ret,
    bind, ret, raise, lift, try_except in *.

Lemma send_telegram_message_run cfg env chat_id text tr :
  send_telegram_message cfg env chat_id text tr
  = (send_outcome cfg env tr chat_id text,
     tr ++ [EvSend cfg chat_id text]).
Proof.
  unfold send_telegram_message, send_outcome, post_outcome, EvSend,
    client_post, response_raise_for_status.
  unfold_monad.
  destruct (AsyncClient_post env tr _ _) as [response|e]; [|reflexivity].
  destruct (raise_for_status response) as [e|]; [reflexivity|].
  destruct (json response); reflexivity.
Qed.



Lemma get_openai_response_run cfg env text tr :
  get_openai_response cfg env text tr
  = (Ok (completion_reply
           (ChatCompletion_create env tr (completion_request cfg text))),
     tr ++ [EvChatCompletion (completion_request cfg text)]).
Proof.
  unfold get_openai_response, completion_reply, completion_text,
    openai_ChatCompletion_create.
  unfold_monad.
  destruct (ChatCompletion_create env tr _) as [r|e]; [|reflexivity].
  destruct (response_content r) as [c|e]; [|reflexivity].
  destruct (py_strip c); reflexivity.
Qed.

(** The handling of a message that has a chat id: the reply is chosen by
    the text, then delivered. *)
Lemma webhook_try_message_run cfg env request message chat_id tr :
  carries_message request message ->
  has_chat_id message chat_id ->
  webhook_try cfg env request tr =
    let '(reply, tr1) :=
      choose_reply cfg env (message_text message) tr in
    match send_outcome cfg env tr1 chat_id reply with
    | Ok _ => (Ok ok_true, tr1 ++ [EvSend cfg chat_id reply])
    | Raise e => (Raise e, tr1 ++ [EvSend cfg chat_id reply])
    end.
Proof.
  intros (d & Hreq & Hd) (m & c & -> & Hm & Hc).
  unfold webhook_try. unfold_monad. rewrite Hreq. simpl.
  rewrite bool_decide_eq_true_2 by (rewrite Hd; eauto). simpl.
  rewrite Hd. simpl. rewrite Hm. simpl. rewrite Hc.
  change (match m !! "text" with Some v => v | None => PyStr EmptyString end)
    with (message_text (PyDict m)).
  set (text := message_text (PyDict m)).
  unfold choose_reply.
  destruct (py_eq_str text "/start").
  - rewrite send_telegram_message_run.
    destruct (send_outcome _ _ _ _ _); reflexivity.
  - destruct (negb (py_truthy text)).
    + rewrite send_telegram_message_run.
      destruct (send_outcome _ _ _ _ _); reflexivity.
    + rewrite get_openai_response_run, send_telegram_message_run.
      destruct (send_outcome _ _ _ _ _); reflexivity.
Qed.

Lemma webhook_message_run cfg env request message chat_id tr :
  carries_message request message ->
  has_chat_id message chat_id ->
  webhook cfg env request tr =
    let '(reply, tr1) :=
      choose_reply cfg env (message_text message) tr in
    deliver cfg env chat_id reply tr1.
Proof.
  intros Hmsg Hchat. unfold webhook, try_except.
  rewrite (webhook_try_message_run _ _ _ _ _ _ Hmsg Hchat).
  destruct (choose_reply _ _ _ _) as [reply tr1]. unfold deliver.
  destruct (send_outcome _ _ _ _ _); [reflexivity|].
  unfold print, EvLog. unfold_monad. by rewrite <- app_assoc.
Qed.

(** Every other handling makes no outbound call at all, whatever the
    configuration and the environment: either the body has no message, or
    a step before the reply raised. *)
Lemma webhook_cases request tr :
  (forall cfg env, webhook cfg env request tr = (Ok ok_true, tr))
  \/ (exists e, forall cfg env,
        webhook_try cfg env request tr = (Raise e, tr)
        /\ webhook cfg env request tr = (Ok (ok_false e), tr ++ [EvLog e]))
  \/ (exists message chat_id,
        carries_message request message /\ has_chat_id message chat_id).
Proof.
  destruct request as [[data|e]].
  2:{ right; left. exists e. intros cfg env. by vm_compute. }
  unfold webhook, webhook_try, carries_message, has_chat_id.
  unfold_monad. simpl.
  destruct data; simpl; try (right; left; eexists; split; reflexivity).
  - destruct (str_contains _ _); simpl; [|by left].
    right; left; eexists; split; reflexivity.
  - destruct (existsb _ _); simpl; [|by left].
    right; left; eexists; split; reflexivity.
  - destruct (d !! "message") as [message|] eqn:Hd.
    2:{ rewrite bool_decide_eq_false_2 by (intros [? ?]; congruence).
        by left. }
    rewrite bool_decide_eq_true_2 by eauto. simpl. right.
    destruct message; simpl;
      try (left; eexists; split; reflexivity).
    destruct (d0 !! "chat") as [chat|] eqn:Hm; simpl;
      [|left; eexists; split; reflexivity].
    destruct chat; simpl; try (left; eexists; split; reflexivity).
    destruct (d1 !! "id") as [chat_id|] eqn:Hc; simpl;
      [|left; eexists; split; reflexivity].
    right. exists (PyDict d0), chat_id. split; [eauto|]. eauto 10.
Qed.

(** * The outcomes differ *)




(** Evaluates the hypotheses of a statement at a concrete update. *)
Ltac at_update :=
  lazymatch goal with
  | |- carries_message _ _ => eexists; split; [reflexivity | by vm_compute]
  | |- has_chat_id _ _ =>
      eexists _, _; split; [reflexivity | split; by vm_compute]
  | |- _ => by vm_compute
  end.

(** * The text path *)




(** * The fixed replies *)







(** * The completion client *)

Lemma response_content_first_choice d first rest msg content :
  d !! "choices" = Some (PyList (PyDict first :: rest)) ->
  first !! "message" = Some (PyDict msg) ->
  msg !! "content" = Some content ->
  response_content (PyDict d) = Ok content.
Proof.
  intros Hd Hfirst Hmsg. unfold response_content. unfold_monad. simpl.
  rewrite Hd. simpl. rewrite Hfirst. simpl. by rewrite Hmsg.
Qed.





(** * The top-level handler *)

(** C3. Whatever step of the handling sequence raises, the handler catches
    the exception, logs it and responds with status 500 and
    [{"ok": false, "error": str(e)}]; in particular when the send call
    raises. Hence for every input the endpoint returns a JSON body, either
    [{"ok": true}] (status 200) or the error shape (status 500). *)
Theorem webhook_catches_everything cfg env request tr :
  (forall e tr',
     webhook_try cfg env request tr = (Raise e, tr') ->
     webhook cfg env request tr
     = (Ok {| content := PyDict {[ "ok" := PyBool false;
                                   "error" := PyStr (exn_str e) ]};
              status_code := 500 |},
        tr' ++ [EvLog e]))
  /\ (forall message chat_id reply tr1 e,
        carries_message request message ->
        has_chat_id message chat_id ->
        choose_reply cfg env (message_text message) tr
        = (reply, tr1) ->
        send_telegram_message cfg env chat_id reply tr1
        = (Raise e, tr1 ++ [EvSend cfg chat_id reply]) ->
        webhook cfg env request tr
        = (Ok {| content := PyDict {[ "ok" := PyBool false;
                                      "error" := PyStr (exn_str e) ]};
                 status_code := 500 |},
           tr1 ++ [EvSend cfg chat_id reply; EvLog e]))
  /\ (exists response tr',
        webhook cfg env request tr = (Ok response, tr')
        /\ (response
            = {| content := PyDict {[ "ok" := PyBool true ]};
                 status_code := 200 |}
            \/ exists e,
                 response
                 = {| content := PyDict {[ "ok" := PyBool false;
                                           "error" := PyStr (exn_str e) ]};
                      status_code := 500 |})).
Proof.
  split; [|split].
  - intros e tr' Htry. unfold webhook, try_except. rewrite Htry.
    unfold print. by unfold_monad.
  - intros message chat_id reply tr1 e Hmsg Hchat Hreply Hsend.
    rewrite send_telegram_message_run in Hsend.
    rewrite (webhook_message_run _ _ _ _ _ _ Hmsg Hchat), Hreply.
    unfold deliver.
    destruct (send_outcome _ _ _ _ _); [discriminate|].
    by injection Hsend as ->.
  - destruct (webhook_cases request tr)
      as [H | [(e & H) | (message & chat_id & Hmsg & Hchat)]].
    + rewrite H. eexists _, _. split; [reflexivity|]. by left.
    + destruct (H cfg env) as [_ ->]. eexists _, _. split; [reflexivity|].
      right. by exists e.
    + rewrite (webhook_message_run _ _ _ _ _ _ Hmsg Hchat).
      destruct (choose_reply _ _ _ _) as [reply tr1]. unfold deliver.
      destruct (send_outcome _ _ _ _ _) as [v|e];
        eexists _, _; (split; [reflexivity|]); [by left | right; by exists e].
Qed.

Lemma webhook_catches_everything_witness :
  webhook cfg_set env_send_down (update_text "/start") []
  = (Ok {| content :=
             PyDict {[ "ok" := PyBool false;
                       "error" := PyStr "All connection attempts failed" ]};
           status_code := 500 |},
     [EvSend cfg_set (PyInt 42) (PyStr welcome_message);
      EvLog connect_error]).
Proof.
  apply (proj1 (proj2 (webhook_catches_everything cfg_set env_send_down
                         (update_text "/start") []))
           (message_from 42 (Some (PyStr "/start"))) (PyInt 42)
           (PyStr welcome_message) [] connect_error);
    at_update.
Defined.

(** * Bodies without a message *)





(** * One reply at most *)

(** C7. For every inbound update at most one send call is made during its
    handling: every path through the handler adds zero or one send call
    to the trace. *)
Theorem webhook_sends_at_most_once cfg env request tr :
  exists new,
    snd (webhook cfg env request tr) = tr ++ new
    /\ (count_sends new <= 1)%nat.
Proof.
  destruct (webhook_cases request tr)
    as [H | [(e & H) | (message & chat_id & Hmsg & Hchat)]].
  - exists []. rewrite H, app_nil_r. split; [done|].
    unfold count_sends. simpl. lia.
  - exists [EvLog e]. destruct (H cfg env) as [_ ->]. split; [done|].
    unfold count_sends. simpl. lia.
  - rewrite (webhook_message_run _ _ _ _ _ _ Hmsg Hchat).
    unfold choose_reply, deliver.
    repeat case_match; simplify_eq; simpl;
      rewrite <- ?app_assoc; eexists; (split; [reflexivity|]);
      unfold count_sends; simpl; lia.
Qed.

(** * The bot token *)





(** * Messages without a chat id *)



(** The example of C9, evaluated: [{"message": {}}] is answered with the
    message of [KeyError('chat')]. *)
Example webhook_empty_message :
  webhook cfg_set env_up (update_with (PyDict ∅)) []
  = (Ok {| content := PyDict {[ "ok" := PyBool false;
                               "error" := PyStr "'chat'" ]};
           status_code := 500 |},
     [EvPrint (webhook_log_prefix +:+ "'chat'")]).
Proof. by vm_compute. Qed.

(** * Whitespace is text *)




(** A single space, evaluated: one completion call with the space, and the
    generated text, trimmed, is sent. *)
Example webhook_single_space :
  webhook cfg_set env_up (update_text " ") []
  = (Ok ok_true,
     [EvChatCompletion (completion_request cfg_set (PyStr " "));
      EvSend cfg_set (PyInt 42) (PyStr "Hello!")]).
Proof. by vm_compute. Qed.

(** * Further properties of the handler *)

Lemma count_sends_app tr new :
  count_sends (tr ++ new) = (count_sends tr + count_sends new)%nat.
Proof. unfold count_sends. by rewrite List.filter_app, length_app. Qed.


Lemma choose_reply_events cfg env text tr :
  snd (choose_reply cfg env text tr) = tr ++ completion_calls cfg text.
Proof.
  unfold choose_reply, completion_calls.
  destruct (py_eq_str text "/start"); simpl.
  - by rewrite andb_false_r, app_nil_r.
  - destruct (py_truthy text); simpl; by rewrite ?app_nil_r.
Qed.

(** The events of the handling of a message that has a chat id: the
    completion calls, the send, and the log line of a failed send. *)
Lemma webhook_message_events cfg env request message chat_id tr :
  carries_message request message ->
  has_chat_id message chat_id ->
  exists reply log,
    snd (webhook cfg env request tr)
    = tr ++ completion_calls cfg (message_text message)
         ++ [EvSend cfg chat_id reply] ++ log
    /\ (log = [] /\ fst (webhook cfg env request tr) = Ok ok_true
        \/ exists e, log = [EvLog e]
                     /\ fst (webhook cfg env request tr) = Ok (ok_false e)).
Proof.
  intros Hmsg Hchat. rewrite (webhook_message_run _ _ _ _ _ _ Hmsg Hchat).
  pose proof (choose_reply_events cfg env (message_text message) tr) as Hev.
  destruct (choose_reply _ _ _ _) as [reply tr1]. simpl in Hev. subst tr1.
  exists reply. unfold deliver.
  destruct (send_outcome _ _ _ _ _) as [v|e]; simpl.
  - exists []. rewrite <- app_assoc. eauto.
  - exists [EvLog e]. rewrite <- app_assoc. eauto.
Qed.

Lemma count_sends_completion_calls cfg text :
  count_sends (completion_calls cfg text) = 0%nat.
Proof. unfold completion_calls. by destruct (_ && _). Qed.


Lemma addressed_sends_once cfg env request tr :
  addressed request ->
  count_sends (snd (webhook cfg env request tr)) = S (count_sends tr).
Proof.
  intros (message & chat_id & Hmsg & Hchat).
  destruct (webhook_message_events cfg env _ _ _ tr Hmsg Hchat)
    as (reply & log & -> & Hlog).
  rewrite !count_sends_app, count_sends_completion_calls.
  destruct Hlog as [[-> _] | (e & -> & _)]; unfold count_sends; simpl; lia.
Qed.

(** X1. The handler makes an outbound call exactly when the body is a JSON
    object whose message has a chat id: then it sends once; on every
    other body it makes neither a send nor a completion call. *)
Theorem webhook_calls_iff_addressed cfg env request tr :
  exists new,
    snd (webhook cfg env request tr) = tr ++ new
    /\ (addressed request /\ count_sends new = 1%nat
        \/ ~ addressed request
           /\ count_sends new = 0%nat /\ count_completions new = 0%nat).
Proof.
  destruct (webhook_cases request tr)
    as [H | [(e & H) | (message & chat_id & Hmsg & Hchat)]].
  - exists []. rewrite H, app_nil_r. split; [done|]. right.
    split; [|done]. intros Haddr.
    pose proof (addressed_sends_once cfg env request tr Haddr) as Hn.
    rewrite H in Hn. simpl in Hn. lia.
  - exists [EvLog e]. destruct (H cfg env) as [_ Hrun]. rewrite Hrun.
    split; [done|]. right. split; [|done]. intros Haddr.
    pose proof (addressed_sends_once cfg env request tr Haddr) as Hn.
    rewrite Hrun in Hn. simpl in Hn. rewrite count_sends_app in Hn.
    unfold count_sends in Hn at 2. simpl in Hn. lia.
  - destruct (webhook_message_events cfg env _ _ _ tr Hmsg Hchat)
      as (reply & log & -> & Hlog).
    eexists. split; [reflexivity|]. left.
    split; [by exists message, chat_id|].
    rewrite !count_sends_app, count_sends_completion_calls.
    destruct Hlog as [[-> _] | (e & -> & _)]; by unfold count_sends.
Qed.






(** X5. The handling reads nothing of an update but the chat id and the
    text of its message: two updates that agree on these are handled
    alike, whatever else they carry (update id, sender, date, ...). *)
Theorem webhook_reads_chat_id_and_text cfg env request1 request2
    message1 message2 chat_id tr :
  carries_message request1 message1 ->
  carries_message request2 message2 ->
  has_chat_id message1 chat_id ->
  has_chat_id message2 chat_id ->
  message_text message1 = message_text message2 ->
  webhook cfg env request1 tr = webhook cfg env request2 tr.
Proof.
  intros Hmsg1 Hmsg2 Hchat1 Hchat2 Htext.
  rewrite (webhook_message_run _ _ _ _ _ _ Hmsg1 Hchat1).
  rewrite (webhook_message_run _ _ _ _ _ _ Hmsg2 Hchat2).
  by rewrite Htext.
Qed.

Lemma webhook_reads_chat_id_and_text_witness :
  webhook cfg_set env_up (update_text "hi") []
  = webhook cfg_set env_up (update_verbose "hi") [].
Proof.
  apply (webhook_reads_chat_id_and_text cfg_set env_up
           (update_text "hi") (update_verbose "hi")
           (message_from 42 (Some (PyStr "hi")))
           (PyDict {[
              "message_id" := PyInt 15;
              "from" := PyDict {[ "id" := PyInt 42;
                                  "is_bot" := PyBool false ]};
              "chat" := PyDict {[ "id" := PyInt 42;
                                  "type" := PyStr "private" ]};
              "date" := PyInt 1700000000;
              "text" := PyStr "hi" ]})
           (PyInt 42) []);
    at_update.
Defined.



(** * Further properties of the admin endpoints *)

(** X8. The admin endpoints treat an empty token like a missing one:
    with the token absent or the empty string both raise
    [HTTPException(500)] with the fixed detail and make no outbound
    call. *)
Theorem admin_endpoints_need_token cfg env webhook_url tr :
  TELEGRAM_BOT_TOKEN cfg = None
  \/ TELEGRAM_BOT_TOKEN cfg = Some EmptyString ->
  set_webhook cfg env webhook_url tr
  = (Raise (HTTPException 500 token_missing_detail), tr)
  /\ get_webhook_info cfg env tr
     = (Raise (HTTPException 500 token_missing_detail), tr).
Proof.
  intros Htoken. unfold set_webhook, get_webhook_info, token_missing.
  by destruct Htoken as [-> | ->].
Qed.

Lemma admin_endpoints_need_token_witness :
  set_webhook cfg_empty_token env_up "https://bot.example/webhook" []
  = (Raise (HTTPException 500 token_missing_detail), [])
  /\ get_webhook_info cfg_empty_token env_up []
     = (Raise (HTTPException 500 token_missing_detail), []).
Proof.
  apply (admin_endpoints_need_token cfg_empty_token env_up
           "https://bot.example/webhook" []).
  right. reflexivity.
Defined.

Lemma token_set_not_missing cfg token :
  token_set cfg token -> token_missing cfg = false.
Proof.
  intros [Htoken Hne]. unfold token_missing. rewrite Htoken.
  by apply String.eqb_neq.
Qed.

(** X9. With a token, [set_webhook] makes exactly one call, a POST to
    the token's [setWebhook] URL carrying [{"url": webhook_url}]; it
    returns the platform's JSON as it is, and an error of the call, of
    the status check or of the body propagates uncaught, with no log
    line. *)
Theorem set_webhook_passes_through cfg env token webhook_url tr :
  token_set cfg token ->
  let url := ("https://api.telegram.org/bot" +:+ token) +:+ "/setWebhook" in
  let payload := PyDict {[ "url" := PyStr webhook_url ]} in
  set_webhook cfg env webhook_url tr
  = (post_outcome (AsyncClient_post env tr url payload),
     tr ++ [EvPost url payload]).
Proof.
  intros Hset url payload. pose proof Hset as [Htoken _].
  unfold set_webhook. rewrite (token_set_not_missing _ _ Hset).
  unfold TELEGRAM_API_URL, client_post, response_raise_for_status,
    post_outcome.
  rewrite Htoken. simpl. fold url payload. unfold_monad.
  destruct (AsyncClient_post env tr url payload) as [response|e];
    [|reflexivity].
  destruct (raise_for_status response); [reflexivity|].
  by destruct (json response).
Qed.

Lemma set_webhook_passes_through_witness :
  set_webhook cfg_set env_platform "https://bot.example/webhook" []
  = (post_outcome
       (AsyncClient_post env_platform []
          (("https://api.telegram.org/bot" +:+ "123456:AAF-token")
           +:+ "/setWebhook")
          (PyDict {[ "url" := PyStr "https://bot.example/webhook" ]})),
     [] ++ [EvPost
              (("https://api.telegram.org/bot" +:+ "123456:AAF-token")
               +:+ "/setWebhook")
              (PyDict {[ "url" := PyStr "https://bot.example/webhook" ]})]).
Proof.
  apply (set_webhook_passes_through cfg_set env_platform "123456:AAF-token"
           "https://bot.example/webhook" []).
  split; [reflexivity | discriminate].
Defined.

(** X10. With a token, [get_webhook_info] makes exactly one call, a GET
    of the token's [getWebhookInfo] URL; it returns the platform's JSON
    as it is, and any error propagates uncaught, with no log line. *)
Theorem get_webhook_info_passes_through cfg env token tr :
  token_set cfg token ->
  let url :=
    ("https://api.telegram.org/bot" +:+ token) +:+ "/getWebhookInfo" in
  get_webhook_info cfg env tr
  = (post_outcome (AsyncClient_get env tr url), tr ++ [EvGet url]).
Proof.
  intros Hset url. pose proof Hset as [Htoken _].
  unfold get_webhook_info. rewrite (token_set_not_missing _ _ Hset).
  unfold TELEGRAM_API_URL, client_get, response_raise_for_status,
    post_outcome.
  rewrite Htoken. simpl. fold url. unfold_monad.
  destruct (AsyncClient_get env tr url) as [response|e]; [|reflexivity].
  destruct (raise_for_status response); [reflexivity|].
  by destruct (json response).
Qed.

Lemma get_webhook_info_passes_through_witness :
  get_webhook_info cfg_set env_send_down []
  = (post_outcome
       (AsyncClient_get env_send_down []
          (("https://api.telegram.org/bot" +:+ "123456:AAF-token")
           +:+ "/getWebhookInfo")),
     [] ++ [EvGet (("https://api.telegram.org/bot" +:+ "123456:AAF-token")
                   +:+ "/getWebhookInfo")]).
Proof.
  apply (get_webhook_info_passes_through cfg_set env_send_down
           "123456:AAF-token" []).
  split; [reflexivity | discriminate].
Defined.

(** The two outcomes of X9 and X10, evaluated: the platform's answer is
    returned, and an unreachable platform raises to the framework. *)
Example set_webhook_accepted :
  fst (set_webhook cfg_set env_up "https://bot.example/webhook" [])
  = Ok (PyDict {[ "ok" := PyBool true ]}).
Proof. by vm_compute. Qed.

Example get_webhook_info_unreachable :
  fst (get_webhook_info cfg_set env_send_down []) = Raise connect_error.
Proof. by vm_compute. Qed.

(** * Further properties of the completion client *)

(** X11. The completion client reads nothing of the answer but the
    content of the message of the first choice: whatever the other
    choices and members are, it returns that content, trimmed. *)
Theorem get_openai_response_first_choice cfg env text tr d first rest msg
    generated :
  ChatCompletion_create env tr (completion_request cfg text) = Ok (PyDict d) ->
  d !! "choices" = Some (PyList (PyDict first :: rest)) ->
  first !! "message" = Some (PyDict msg) ->
  msg !! "content" = Some (PyStr generated) ->
  get_openai_response cfg env text tr
  = (Ok (PyStr (str_strip generated)),
     tr ++ [EvChatCompletion (completion_request cfg text)]).
Proof.
  intros Hcreate Hd Hfirst Hmsg.
  rewrite get_openai_response_run, Hcreate.
  unfold completion_reply, completion_text. unfold_monad.
  by rewrite (response_content_first_choice _ _ _ _ _ Hd Hfirst Hmsg).
Qed.

Lemma get_openai_response_first_choice_witness :
  get_openai_response cfg_set
    (env_answers
       (Ok (PyDict {[
          "id" := PyStr "chatcmpl-1";
          "choices" := PyList [
            PyDict {[ "index" := PyInt 0;
                      "message" := PyDict {[ "content" := PyStr " one " ]} ]};
            PyDict {[ "index" := PyInt 1;
                      "message" := PyDict {[ "content" := PyStr "two" ]} ]} ]
        ]})))
    (PyStr "hi") []
  = (Ok (PyStr (str_strip " one ")),
     [] ++ [EvChatCompletion (completion_request cfg_set (PyStr "hi"))]).
Proof.
  eapply (get_openai_response_first_choice cfg_set _ (PyStr "hi") []);
    [reflexivity | by vm_compute | by vm_compute | by vm_compute].
Defined.

(** X12. An answer without choices, or whose content is null, is not an
    exception for the caller: the client returns the error prefix
    followed by Python's message for the failed step. *)
Theorem get_openai_response_malformed cfg env text tr d :
  ChatCompletion_create env tr (completion_request cfg text) = Ok (PyDict d) ->
  (d !! "choices" = Some (PyList []) ->
   fst (get_openai_response cfg env text tr)
   = Ok (PyStr (openai_error_prefix +:+ "list index out of range")))
  /\ (forall first rest msg,
        d !! "choices" = Some (PyList (PyDict first :: rest)) ->
        first !! "message" = Some (PyDict msg) ->
        msg !! "content" = Some PyNone ->
        fst (get_openai_response cfg env text tr)
        = Ok (PyStr (openai_error_prefix
                     +:+ "'NoneType' object has no attribute 'strip'"))).
Proof.
  intros Hcreate. rewrite get_openai_response_run, Hcreate. split.
  - intros Hd. unfold completion_reply, completion_text, response_content.
    unfold_monad. simpl. by rewrite Hd.
  - intros first rest msg Hd Hfirst Hmsg.
    unfold completion_reply, completion_text. unfold_monad.
    by rewrite (response_content_first_choice _ _ _ _ _ Hd Hfirst Hmsg).
Qed.

Lemma get_openai_response_malformed_witness :
  fst (get_openai_response cfg_set (env_answers (Ok (completion_with PyNone)))
         (PyStr "hi") [])
  = Ok (PyStr (openai_error_prefix
               +:+ "'NoneType' object has no attribute 'strip'")).
Proof.
  eapply (proj2 (get_openai_response_malformed cfg_set
                   (env_answers (Ok (completion_with PyNone)))
                   (PyStr "hi") [] _ eq_refl));
    by vm_compute.
Defined.



(** * Bodies that are not objects *)



(** An array that holds the string "message" passes the membership test
    and fails at the subscript. *)
Example webhook_array_body :
  fst (webhook cfg_set env_up
         {| request_json := Ok (PyList [PyStr "message"]) |} [])
  = Ok (ok_false
          (TypeError "list indices must be integers or slices, not str")).
Proof. by vm_compute. Qed.

(** * The trimming *)

Lemma string_app_assoc (s1 s2 s3 : string) :
  (s1 +:+ s2) +:+ s3 = s1 +:+ (s2 +:+ s3).
Proof.
  induction s1 as [|a s1 IH]; [reflexivity|].
  change (String a ((s1 +:+ s2) +:+ s3) = String a (s1 +:+ (s2 +:+ s3))).
  by rewrite IH.
Qed.

Lemma string_app_nil_r (s : string) : s +:+ EmptyString = s.
Proof.
  induction s as [|a s IH]; [reflexivity|].
  change (String a (s +:+ EmptyString) = String a s). by rewrite IH.
Qed.

Lemma string_rev_app_spec (s1 s2 : string) :
  String.rev_app s1 s2 = String.rev s1 +:+ s2.
Proof.
  revert s2. induction s1 as [|a s1 IH]; intros s2; [reflexivity|].
  unfold String.rev. simpl.
  rewrite (IH (String a s2)), (IH (String a EmptyString)).
  by rewrite string_app_assoc.
Qed.

Lemma string_rev_app (s1 s2 : string) :
  String.rev (s1 +:+ s2) = String.rev s2 +:+ String.rev s1.
Proof.
  induction s1 as [|a s1 IH].
  - by rewrite string_app_nil_r.
  - change (String.rev_app (s1 +:+ s2) (String a EmptyString)
            = String.rev s2 +:+ String.rev_app s1 (String a EmptyString)).
    by rewrite !string_rev_app_spec, IH, string_app_assoc.
Qed.

Lemma string_rev_involutive (s : string) : String.rev (String.rev s) = s.
Proof.
  induction s as [|a s IH]; [reflexivity|].
  change (String.rev (String.rev_app s (String a EmptyString)) = String a s).
  by rewrite string_rev_app_spec, string_rev_app, IH.
Qed.

(** What [strip_leading] drops is whitespace, and what it keeps is the
    rest of the string. *)
Lemma strip_leading_split backwards s :
  exists dropped,
    s = dropped +:+ strip_leading backwards s
    /\ strip_leading backwards dropped = EmptyString.
Proof.
  remember (String.length s) as n eqn:Hn.
  revert s Hn. induction n as [n IH] using lt_wf_ind. intros s Hn.
  destruct s as [|a s1]; [by exists EmptyString|].
  simpl. destruct (is_space1 a) eqn:E1.
  { destruct (IH (String.length s1) ltac:(simpl in Hn; lia) s1 eq_refl)
      as (dropped & Hs & Hdropped).
    exists (String a dropped). split.
    - change (String a s1 = String a (dropped +:+ strip_leading backwards s1)).
      by rewrite <- Hs.
    - simpl. by rewrite E1. }
  destruct s1 as [|b s2]; [by exists EmptyString|].
  destruct (if backwards then is_space2 b a else is_space2 a b) eqn:E2.
  { destruct (IH (String.length s2) ltac:(simpl in Hn; lia) s2 eq_refl)
      as (dropped & Hs & Hdropped).
    exists (String a (String b dropped)). split.
    - change (String a (String b s2)
              = String a (String b (dropped +:+ strip_leading backwards s2))).
      by rewrite <- Hs.
    - simpl. by rewrite E1, E2. }
  destruct s2 as [|c s3]; [by exists EmptyString|].
  destruct (if backwards then is_space3 c b a else is_space3 a b c) eqn:E3;
    [|by exists EmptyString].
  destruct (IH (String.length s3) ltac:(simpl in Hn; lia) s3 eq_refl)
    as (dropped & Hs & Hdropped).
  exists (String a (String b (String c dropped))). split.
  - change (String a (String b (String c s3))
            = String a (String b (String c
                (dropped +:+ strip_leading backwards s3)))).
    by rewrite <- Hs.
  - simpl. by rewrite E1, E2, E3.
Qed.

Lemma str_strip_split s :
  exists before after,
    s = before +:+ str_strip s +:+ after
    /\ strip_leading false before = EmptyString
    /\ strip_leading true (String.rev after) = EmptyString.
Proof.
  destruct (strip_leading_split false s) as (before & Hs & Hbefore).
  destruct (strip_leading_split true (String.rev (strip_leading false s)))
    as (dropped & Hrev & Hdropped).
  exists before, (String.rev dropped). split; [|split].
  - unfold str_strip. rewrite <- string_rev_app, <- Hrev.
    by rewrite string_rev_involutive.
  - exact Hbefore.
  - by rewrite string_rev_involutive.
Qed.

(** X15. On success the completion client only trims: the generated
    text is the reply with whitespace before it and whitespace after it,
    so no character of the reply is altered or made up. *)
Theorem get_openai_response_only_trims cfg env text tr response generated :
  ChatCompletion_create env tr (completion_request cfg text) = Ok response ->
  response_content response = Ok (PyStr generated) ->
  exists before reply after,
    fst (get_openai_response cfg env text tr) = Ok (PyStr reply)
    /\ generated = before +:+ reply +:+ after
    /\ strip_leading false before = EmptyString
    /\ strip_leading true (String.rev after) = EmptyString.
Proof.
  intros Hcreate Hcontent.
  destruct (str_strip_split generated) as (before & after & Hsplit & Hblank).
  exists before, (str_strip generated), after. split; [|by split].
  rewrite get_openai_response_run, Hcreate.
  unfold completion_reply, completion_text. unfold_monad.
  by rewrite Hcontent.
Qed.

Lemma get_openai_response_only_trims_witness :
  exists before reply after,
    fst (get_openai_response cfg_set env_up (PyStr "hi") []) = Ok (PyStr reply)
    /\ "  Hello!  " = before +:+ reply +:+ after
    /\ strip_leading false before = EmptyString
    /\ strip_leading true (String.rev after) = EmptyString.
Proof.
  apply (get_openai_response_only_trims cfg_set env_up (PyStr "hi") []
           (chat_completion "  Hello!  ") "  Hello!  ");
    by vm_compute.
Defined.

(** * The fixed replies and the completion API *)

(** X16. The welcome and the prompt do not involve the completion API:
    for "/start" and for a falsy text the handling is the same whatever
    the API key and however the completion API behaves, as long as the
    token and the platform's answer to the send are the same. *)
Theorem webhook_fixed_replies_need_no_api cfg1 cfg2 env1 env2 request message
    chat_id tr :
  carries_message request message ->
  has_chat_id message chat_id ->
  py_eq_str (message_text message) "/start" = true
  \/ py_truthy (message_text message) = false ->
  TELEGRAM_BOT_TOKEN cfg1 = TELEGRAM_BOT_TOKEN cfg2 ->
  (forall url payload,
     AsyncClient_post env1 tr url payload
     = AsyncClient_post env2 tr url payload) ->
  webhook cfg1 env1 request tr = webhook cfg2 env2 request tr.
Proof.
  intros Hmsg Hchat Hfixed Htoken Hpost.
  rewrite !(webhook_message_run _ _ _ _ _ _ Hmsg Hchat).
  assert (forall reply,
            deliver cfg1 env1 chat_id reply tr
            = deliver cfg2 env2 chat_id reply tr) as Hdeliver.
  { intros reply.
    unfold deliver, send_outcome, EvSend, sendMessage_url, TELEGRAM_API_URL.
    by rewrite Htoken, Hpost. }
  unfold choose_reply.
  destruct (py_eq_str (message_text message) "/start"); [apply Hdeliver|].
  destruct Hfixed as [Hcmd | Hfalsy]; [discriminate|].
  rewrite Hfalsy. apply Hdeliver.
Qed.

Lemma webhook_fixed_replies_need_no_api_witness :
  webhook cfg_set env_up (update_text "/start") []
  = webhook {| TELEGRAM_BOT_TOKEN := Some "123456:AAF-token";
               OPENAI_API_KEY := None |}
      env_api_down (update_text "/start") [].
Proof.
  apply (webhook_fixed_replies_need_no_api cfg_set
           {| TELEGRAM_BOT_TOKEN := Some "123456:AAF-token";
              OPENAI_API_KEY := None |}
           env_up env_api_down (update_text "/start")
           (message_from 42 (Some (PyStr "/start"))) (PyInt 42) []);
    [at_update | at_update | left; by vm_compute | reflexivity
    | intros url payload; reflexivity].
Defined.
